(** * no-base-to-string: the stringification-usefulness classifier

    A shallow embedding of [collectToStringCertainty] and of the rule's
    default options, from
    [packages/eslint-plugin/src/rules/no-base-to-string.ts], together with
    the properties the specification states about them.

    The TypeScript checker is an oracle for the rule: a [ts_Type] below is
    the finite tree of the answers the checker gives about one type and about
    the constituents the rule descends into. *)

From Stdlib Require Import ZArith List String Bool Arith Lia.
From Stdlib Require Import Permutation.
Import ListNotations.

Local Open Scope string_scope.
Local Open Scope list_scope.

(* ================================================================== *)
(** ** JavaScript helpers used by the rule *)

Module JS.

(** [ToInt32]: the conversion [&] applies to both operands. *)
Definition ToInt32 (z : Z) : Z :=
  ((z + 2 ^ 31) mod 2 ^ 32 - 2 ^ 31)%Z.

(** [a & b] on integral numbers. *)
Definition bitand (a b : Z) : Z := Z.land (ToInt32 a) (ToInt32 b).

(** Truthiness of a number that is not NaN. *)
Definition truthyZ (z : Z) : bool := negb (z =? 0)%Z.

(** Truthiness of an optional boolean ([undefined] is falsy). *)
Definition truthy (b : option bool) : bool :=
  match b with
  | Some true => true
  | _ => false
  end.

(** [x ?? d]. *)
Definition nullish {A : Type} (x : option A) (d : A) : A :=
  match x with
  | Some a => a
  | None => d
  end.

(** [Array.prototype.includes] on an array of strings. *)
Definition includes (l : list string) (x : string) : bool :=
  existsb (String.eqb x) l.

(** [Array.prototype.every]. *)
Definition every {A : Type} (l : list A) (p : A -> bool) : bool :=
  forallb p l.

End JS.

(* ================================================================== *)
(** ** Data model *)

(** [enum Usefulness], with the string each member stands for. *)
Inductive Usefulness : Set :=
| Always
| Never
| Sometimes
| Function.

Definition Usefulness_value (u : Usefulness) : string :=
  match u with
  | Always => "always"
  | Never => "will"
  | Sometimes => "may"
  | Function => "function"
  end.

(** [a === b] on members of the enum compares their strings. *)
Definition Usefulness_eqb (a b : Usefulness) : bool :=
  String.eqb (Usefulness_value a) (Usefulness_value b).

Definition isAlways (u : Usefulness) : bool := Usefulness_eqb u Always.
Definition isNever (u : Usefulness) : bool := Usefulness_eqb u Never.

(** [Options[0]]: both properties are optional. *)
Record Options : Type := mkOptions {
  opt_ignoredTypeNames : option (list string);
  opt_rejectFunctions : option bool
}.

(** The two members of [ts.TypeFlags] the rule tests. The enum belongs to
    the TypeScript compiler, so its values are parameters here. *)
Class TypeFlags : Type := mkTypeFlags {
  Boolean : Z;
  BooleanLiteral : Z
}.

(** The syntax node a declaration hangs from: what
    [ts.isInterfaceDeclaration] answers and, for an interface declaration,
    [name.text]. *)
Record Node : Type := mkNode {
  isInterfaceDeclaration : bool;
  name_text : string
}.

Record Declaration : Type := mkDeclaration {
  parent : Node
}.

(** [ts.Symbol]: [getDeclarations()] is an array or [undefined]. *)
Record Symbol : Type := mkSymbol {
  getDeclarations : option (list Declaration)
}.

(** [ts.Signature]: only counted. *)
Inductive Signature : Set := signature.

(** [ts.Type] as the rule sees it. [getPropertyOfType] and [getTypeName]
    are the checker's (and [util.getTypeName]'s) answers for this type;
    [types] is read only when the type is an intersection or a union. *)
#[local] Unset Elimination Schemes.
Inductive ts_Type : Type := mkType {
  flags : Z;
  getPropertyOfType : string -> option Symbol;
  getCallSignatures : list Signature;
  getTypeName : string;
  isIntersection : bool;
  isUnion : bool;
  types : list ts_Type
}.
#[local] Set Elimination Schemes.

(* ================================================================== *)
(** ** The rule *)

(** [defaultOptions]. *)
Definition defaultOptions : list Options :=
  [ mkOptions (Some ["Error"; "RegExp"; "URL"; "URLSearchParams"])
              (Some false) ].

Section create.

Context {ts : TypeFlags}.

(** [option], the first element of the rule's options. *)
Variable option_ : Options.

Definition ignoredTypeNames : list string :=
  JS.nullish (opt_ignoredTypeNames option_) [].

(** The test of line 111: either boolean flag is set. *)
Definition isBooleanLike (type : ts_Type) : bool :=
  JS.truthyZ (JS.bitand (flags type) Boolean)
  || JS.truthyZ (JS.bitand (flags type) BooleanLiteral).

(** The callback of [declarations.every] (line 124). *)
Definition notObjectInterface (d : Declaration) : bool :=
  negb (isInterfaceDeclaration (parent d))
  || negb (String.eqb (name_text (parent d)) "Object").

(** Body of the intersection loop: the first [Always] returns. *)
Fixpoint intersectionLoop {A : Type} (rec : A -> Usefulness)
         (subTypes : list A) : Usefulness :=
  match subTypes with
  | [] => Never
  | subType :: rest =>
      let subtypeUsefulness := rec subType in
      if Usefulness_eqb subtypeUsefulness Always then Always
      else intersectionLoop rec rest
  end.

(** One iteration of the union loop on the pair
    [(allSubtypesUseful, someSubtypeUseful)]. *)
Definition unionStep (st : bool * bool) (subtypeUsefulness : Usefulness)
  : bool * bool :=
  let '(allSubtypesUseful, someSubtypeUseful) := st in
  let allSubtypesUseful :=
    if negb (Usefulness_eqb subtypeUsefulness Always) && allSubtypesUseful
    then false else allSubtypesUseful in
  let someSubtypeUseful :=
    if negb (Usefulness_eqb subtypeUsefulness Never)
       && negb someSubtypeUseful
    then true else someSubtypeUseful in
  (allSubtypesUseful, someSubtypeUseful).

(** Lines 162-170. *)
Definition unionVerdict (st : bool * bool) : Usefulness :=
  let '(allSubtypesUseful, someSubtypeUseful) := st in
  if allSubtypesUseful && someSubtypeUseful then Always
  else if someSubtypeUseful then Sometimes
  else Never.

Fixpoint collectToStringCertainty (type : ts_Type) : Usefulness :=
  let toString := getPropertyOfType type "toString" in
  let callSignatures := getCallSignatures type in
  if JS.truthy (opt_rejectFunctions option_)
     && (0 <? List.length callSignatures)%nat
  then Function
  else
    match toString with
    | None => Always
    | Some toString =>
        match getDeclarations toString with
        | None => Always
        | Some declarations =>
            if (List.length declarations =? 0)%nat then Always
            else if isBooleanLike type then Always
            else if JS.includes ignoredTypeNames (getTypeName type)
            then Always
            else if JS.every declarations notObjectInterface then Always
            else if isIntersection type then
              intersectionLoop collectToStringCertainty (types type)
            else if negb (isUnion type) then Never
            else
              unionVerdict
                (fold_left
                   (fun st subType =>
                      unionStep st (collectToStringCertainty subType))
                   (types type) (true, false))
        end
    end.

(** *** The conditions of the early returns, by name *)

(** Line 103. *)
Definition rejectsFunction (type : ts_Type) : bool :=
  JS.truthy (opt_rejectFunctions option_)
  && (0 <? List.length (getCallSignatures type))%nat.

(** [declarations] where it is an array; empty where [toString] or
    [declarations] is [undefined]. *)
Definition toStringDeclarations (type : ts_Type) : list Declaration :=
  match getPropertyOfType type "toString" with
  | None => []
  | Some toString => JS.nullish (getDeclarations toString) []
  end.

(** Line 106. *)
Definition lacksDeclarations (type : ts_Type) : bool :=
  match getPropertyOfType type "toString" with
  | None => true
  | Some toString =>
      match getDeclarations toString with
      | None => true
      | Some declarations => (List.length declarations =? 0)%nat
      end
  end.

(** Line 118. *)
Definition isIgnoredTypeName (type : ts_Type) : bool :=
  JS.includes ignoredTypeNames (getTypeName type).

(** None of the returns of lines 103-129 is taken: control reaches
    line 131. *)
Definition reachesDecomposition (type : ts_Type) : bool :=
  negb (rejectsFunction type)
  && negb (lacksDeclarations type)
  && negb (isBooleanLike type)
  && negb (isIgnoredTypeName type)
  && negb (JS.every (toStringDeclarations type) notObjectInterface).

(** The verdicts of the constituents, in the order of [type.types]. *)
Definition subtypeVerdicts (type : ts_Type) : list Usefulness :=
  map collectToStringCertainty (types type).

(** *** The same function on a bounded call stack

    [collectToStringCertaintyFuel fuel] runs the same body where at most
    [fuel] activations of the function may be live at once: [None] says
    the bound was hit. *)

Fixpoint intersectionLoopFuel {A : Type} (rec : A -> option Usefulness)
         (subTypes : list A) : option Usefulness :=
  match subTypes with
  | [] => Some Never
  | subType :: rest =>
      match rec subType with
      | None => None
      | Some subtypeUsefulness =>
          if Usefulness_eqb subtypeUsefulness Always then Some Always
          else intersectionLoopFuel rec rest
      end
  end.

Fixpoint unionLoopFuel {A : Type} (rec : A -> option Usefulness)
         (subTypes : list A) (st : bool * bool) : option (bool * bool) :=
  match subTypes with
  | [] => Some st
  | subType :: rest =>
      match rec subType with
      | None => None
      | Some subtypeUsefulness =>
          unionLoopFuel rec rest (unionStep st subtypeUsefulness)
      end
  end.

Fixpoint collectToStringCertaintyFuel (fuel : nat) (type : ts_Type)
  : option Usefulness :=
  match fuel with
  | O => None
  | S fuel =>
      let toString := getPropertyOfType type "toString" in
      let callSignatures := getCallSignatures type in
      if JS.truthy (opt_rejectFunctions option_)
         && (0 <? List.length callSignatures)%nat
      then Some Function
      else
        match toString with
        | None => Some Always
        | Some toString =>
            match getDeclarations toString with
            | None => Some Always
            | Some declarations =>
                if (List.length declarations =? 0)%nat then Some Always
                else if isBooleanLike type then Some Always
                else if JS.includes ignoredTypeNames (getTypeName type)
                then Some Always
                else if JS.every declarations notObjectInterface
                then Some Always
                else if isIntersection type then
                  intersectionLoopFuel
                    (collectToStringCertaintyFuel fuel) (types type)
                else if negb (isUnion type) then Some Never
                else
                  option_map unionVerdict
                    (unionLoopFuel
                       (collectToStringCertaintyFuel fuel)
                       (types type) (true, false))
            end
        end
  end.

End create.

(** How deep unions and intersections nest in a type: 0 for a type that is
    neither. *)
Fixpoint nestingDepth (type : ts_Type) : nat :=
  if isIntersection type || isUnion type
  then S (list_max (map nestingDepth (types type)))
  else 0.

(** A declaration whose parent is the interface declaration named
    [Object]. *)
Definition inObjectInterface (d : Declaration) : Prop :=
  isInterfaceDeclaration (parent d) = true /\ name_text (parent d) = "Object".

(** *** Options handed to [create] *)

(** Modelled from the spec: [util.createRule], which applies
    [defaultOptions] to the options of the user before it calls [create],
    is not among the sources. The specification gives each of the two
    settings a default, so a setting the user leaves out takes the value
    [defaultOptions] has for it. *)
Definition mergeOptions (default user : Options) : Options :=
  mkOptions
    (match opt_ignoredTypeNames user with
     | Some names => Some names
     | None => opt_ignoredTypeNames default
     end)
    (match opt_rejectFunctions user with
     | Some b => Some b
     | None => opt_rejectFunctions default
     end).

(** Modelled from the spec: see [mergeOptions]; [userOptions] is the
    array of options of the user, empty when none is supplied. *)
Fixpoint applyDefault (defaults userOptions : list Options) : list Options :=
  match defaults, userOptions with
  | default :: defaults, user :: userOptions =>
      mergeOptions default user :: applyDefault defaults userOptions
  | _, [] => defaults
  | [], _ :: _ => []
  end.

(** [create(context, [option])]: the first of the options after the
    defaults were applied. *)
Definition createOption (userOptions : list Options) : option Options :=
  hd_error (applyDefault defaultOptions userOptions).

(** *** The union law in the words of the specification

    Only [Always] counts as useful: all useful gives [Always], some but
    not all gives [Sometimes], none gives [Never]. *)
Definition unionLawAsStated {ts : TypeFlags} (option_ : Options)
           (type : ts_Type) : Prop :=
  let vs := subtypeVerdicts option_ type in
  (Forall (eq Always) vs ->
   collectToStringCertainty option_ type = Always)
  /\ (Exists (eq Always) vs -> ~ Forall (eq Always) vs ->
      collectToStringCertainty option_ type = Sometimes)
  /\ (~ Exists (eq Always) vs ->
      collectToStringCertainty option_ type = Never).

(* ================================================================== *)
(** ** Syntax nodes, reports and the listeners of the rule *)

(** The members of [AST_NODE_TYPES] the rule names; every other kind of
    node is [OtherNodeType]. *)
Inductive AST_NODE_TYPES : Set :=
| Literal
| PrivateIdentifier
| TaggedTemplateExpression
| OtherNodeType.

(** [a === b] on node types. *)
Definition AST_NODE_TYPES_eqb (a b : AST_NODE_TYPES) : bool :=
  match a, b with
  | Literal, Literal => true
  | PrivateIdentifier, PrivateIdentifier => true
  | TaggedTemplateExpression, TaggedTemplateExpression => true
  | OtherNodeType, OtherNodeType => true
  | _, _ => false
  end.

(** A node the rule may check: its [type], the text
    [context.getSourceCode().getText(node)] gives for it and the type
    [services.getTypeAtLocation(node)] gives for it. *)
Record Expression : Type := mkExpression {
  node_type : AST_NODE_TYPES;
  getText : string;
  getTypeAtLocation : ts_Type
}.

(** The node of [+] and [+=]. *)
Record BinaryNode : Type := mkBinaryNode {
  left : Expression;
  right : Expression
}.

(** [MemberExpression]: only [object] is read. *)
Record MemberExpressionNode : Type := mkMemberExpressionNode {
  object : Expression
}.

(** The [toString] identifier of a call [x.toString()]: only its parent is
    read. *)
Record PropertyNode : Type := mkPropertyNode {
  property_parent : MemberExpressionNode
}.

(** [TemplateLiteral]: the type of its parent and its expressions. *)
Record TemplateLiteralNode : Type := mkTemplateLiteralNode {
  template_parent_type : AST_NODE_TYPES;
  expressions : list Expression
}.

Inductive MessageIds : Set :=
| fnToString
| baseToString.

(** [data] of a report: [certainty] is left out of [fnToString] reports. *)
Record ReportData : Type := mkReportData {
  data_certainty : option Usefulness;
  data_name : string
}.

(** The argument of [context.report]. *)
Record ReportDescriptor : Type := mkReportDescriptor {
  data : ReportData;
  messageId : MessageIds;
  node : Expression
}.

(** [context.report]: the reports made so far are the state. *)
Definition report (descriptor : ReportDescriptor)
           (reports : list ReportDescriptor) : list ReportDescriptor :=
  reports ++ [descriptor].

(** A visit ESLint makes to one of the three listeners [create] returns. *)
Inductive Visit : Type :=
| visitPlus (node : BinaryNode)
| visitToStringCall (node : PropertyNode)
| visitTemplateLiteral (node : TemplateLiteralNode).

Section listeners.

Context {ts : TypeFlags}.
Variable option_ : Options.

Definition checkExpression (node : Expression) (type : option ts_Type)
           (reports : list ReportDescriptor) : list ReportDescriptor :=
  if AST_NODE_TYPES_eqb (node_type node) Literal then reports
  else
    let certainty :=
      collectToStringCertainty option_
        (JS.nullish type (getTypeAtLocation node)) in
    if Usefulness_eqb certainty Always then reports
    else if Usefulness_eqb certainty Function then
      report (mkReportDescriptor (mkReportData None (getText node))
                                 fnToString node)
             reports
    else
      report (mkReportDescriptor
                (mkReportData (Some certainty) (getText node))
                baseToString node)
             reports.

(** Listener of
    [AssignmentExpression[operator = "+="], BinaryExpression[operator = "+"]]. *)
Definition onPlus (node : BinaryNode) (reports : list ReportDescriptor)
  : list ReportDescriptor :=
  let leftType := getTypeAtLocation (left node) in
  let rightType := getTypeAtLocation (right node) in
  if String.eqb (getTypeName leftType) "string" then
    checkExpression (right node) (Some rightType) reports
  else if String.eqb (getTypeName rightType) "string"
          && negb (AST_NODE_TYPES_eqb (node_type (left node))
                                      PrivateIdentifier)
  then checkExpression (left node) (Some leftType) reports
  else reports.

(** Listener of the [toString] property of a called member expression. *)
Definition onToStringCall (node : PropertyNode)
           (reports : list ReportDescriptor) : list ReportDescriptor :=
  let memberExpr := property_parent node in
  checkExpression (object memberExpr) None reports.

(** Listener of [TemplateLiteral]. *)
Definition onTemplateLiteral (node : TemplateLiteralNode)
           (reports : list ReportDescriptor) : list ReportDescriptor :=
  if AST_NODE_TYPES_eqb (template_parent_type node) TaggedTemplateExpression
  then reports
  else
    fold_left (fun reports expression =>
                 checkExpression expression None reports)
              (expressions node) reports.

(** The object [create] returns, applied to one visit. *)
Definition listener (v : Visit) (reports : list ReportDescriptor)
  : list ReportDescriptor :=
  match v with
  | visitPlus node => onPlus node reports
  | visitToStringCall node => onToStringCall node reports
  | visitTemplateLiteral node => onTemplateLiteral node reports
  end.

(** The listeners run on the visits of one traversal, in order. *)
Definition traverse (visits : list Visit) (reports : list ReportDescriptor)
  : list ReportDescriptor :=
  fold_left (fun reports v => listener v reports) visits reports.

(** *** What the listeners look at *)

(** An expression [checkExpression] reports when it is given the type at
    the location of the node. *)
Definition reportable (e : Expression) : bool :=
  negb (AST_NODE_TYPES_eqb (node_type e) Literal)
  && negb (isAlways
             (collectToStringCertainty option_ (getTypeAtLocation e))).

(** A report says what the function found for the type of its node. *)
Definition justified (r : ReportDescriptor) : Prop :=
  let certainty :=
    collectToStringCertainty option_ (getTypeAtLocation (node r)) in
  node_type (node r) <> Literal
  /\ data_name (data r) = getText (node r)
  /\ ((messageId r = fnToString
       /\ data_certainty (data r) = None
       /\ certainty = Function)
      \/ (messageId r = baseToString
          /\ data_certainty (data r) = Some certainty
          /\ (Usefulness_value certainty = "will"
              \/ Usefulness_value certainty = "may"))).

End listeners.

(** The operand of [+] or [+=] the listener hands to [checkExpression],
    if any. *)
Definition plusOperand (n : BinaryNode) : list Expression :=
  if String.eqb (getTypeName (getTypeAtLocation (left n))) "string"
  then [right n]
  else if String.eqb (getTypeName (getTypeAtLocation (right n))) "string"
          && negb (AST_NODE_TYPES_eqb (node_type (left n)) PrivateIdentifier)
  then [left n]
  else [].

(** The expressions the listeners hand to [checkExpression] during the
    visits, in order. *)
Definition checkedExpressions (v : Visit) : list Expression :=
  match v with
  | visitPlus n => plusOperand n
  | visitToStringCall n => [object (property_parent n)]
  | visitTemplateLiteral n =>
      if AST_NODE_TYPES_eqb (template_parent_type n) TaggedTemplateExpression
      then []
      else expressions n
  end.

(** [permissive o o']: [o'] ignores every name [o] ignores, and rejects
    functions only if [o] does. *)
Definition permissive (o o' : Options) : Prop :=
  (forall name, In name (ignoredTypeNames o) -> In name (ignoredTypeNames o'))
  /\ (JS.truthy (opt_rejectFunctions o') = true ->
      JS.truthy (opt_rejectFunctions o) = true).

(** The same type with other constituents. *)
Definition withTypes (type : ts_Type) (subTypes : list ts_Type) : ts_Type :=
  mkType (flags type) (getPropertyOfType type) (getCallSignatures type)
         (getTypeName type) (isIntersection type) (isUnion type) subTypes.

(* ================================================================== *)
(** ** Sample types *)

Module Samples.

(** [ts.TypeFlags.Boolean] is [1 << 4] and [BooleanLiteral] is
    [1 << 9] in the TypeScript compiler. *)
#[export] Instance tsTypeFlags : TypeFlags :=
  {| Boolean := 16; BooleanLiteral := 512 |}.

Definition TypeFlags_Object : Z := 524288.
Definition TypeFlags_Union : Z := 1048576.
Definition TypeFlags_Intersection : Z := 2097152.

Definition declaredIn (isInterface : bool) (name : string) : Declaration :=
  mkDeclaration (mkNode isInterface name).

Definition propertyToString (ds : list Declaration)
  : string -> option Symbol :=
  fun name =>
    if String.eqb name "toString" then Some (mkSymbol (Some ds)) else None.

(** [{}]: [toString] comes from [interface Object]. *)
Definition plainObject : ts_Type :=
  mkType TypeFlags_Object (propertyToString [declaredIn true "Object"])
         [] "{}" false false [].

(** [class Point { toString() {...} }]. *)
Definition pointClass : ts_Type :=
  mkType TypeFlags_Object (propertyToString [declaredIn false "Point"])
         [] "Point" false false [].

(** [() => void]: callable, [toString] from [interface Function]. *)
Definition arrowFunction : ts_Type :=
  mkType TypeFlags_Object (propertyToString [declaredIn true "Function"])
         [signature] "() => void" false false [].

(** A callable type whose name is [Error]. *)
Definition callableError : ts_Type :=
  mkType TypeFlags_Object (propertyToString [declaredIn true "Object"])
         [signature] "Error" false false [].

(** [Error]: [toString] is inherited from [interface Object]. *)
Definition errorType : ts_Type :=
  mkType TypeFlags_Object (propertyToString [declaredIn true "Object"])
         [] "Error" false false [].

(** A type with no [toString] property at all. *)
Definition bare : ts_Type :=
  mkType 1 (fun _ => None) [] "any" false false [].

(** [boolean], with a [toString] found on [interface Object]. *)
Definition booleanType : ts_Type :=
  mkType (16 + TypeFlags_Union)
         (propertyToString [declaredIn true "Object"])
         [] "boolean" false true [].

(** [(() => void) | {}]: not callable as a whole. *)
Definition functionOrObject : ts_Type :=
  mkType TypeFlags_Union
         (propertyToString
            [declaredIn true "Function"; declaredIn true "Object"])
         [] "(() => void) | {}" false true [arrowFunction; plainObject].

(** [Point | {}]. *)
Definition pointOrObject : ts_Type :=
  mkType TypeFlags_Union
         (propertyToString
            [declaredIn false "Point"; declaredIn true "Object"])
         [] "Point | {}" false true [pointClass; plainObject].

(** [{} & Point]. *)
Definition objectAndPoint : ts_Type :=
  mkType TypeFlags_Intersection
         (propertyToString
            [declaredIn true "Object"; declaredIn false "Point"])
         [] "{} & Point" true false [plainObject; pointClass].

(** [Point | Error]. *)
Definition pointOrError : ts_Type :=
  mkType TypeFlags_Union
         (propertyToString
            [declaredIn false "Point"; declaredIn true "Object"])
         [] "Point | Error" false true [pointClass; errorType].

(** [{} | Record<string, number>]. *)
Definition objectOrRecord : ts_Type :=
  mkType TypeFlags_Union
         (propertyToString [declaredIn true "Object"])
         [] "{} | Record<string, number>" false true
         [plainObject;
          mkType TypeFlags_Object
                 (propertyToString [declaredIn true "Object"])
                 [] "Record<string, number>" false false []].

(** [({} & Point) | {}]: a union over an intersection. *)
Definition nested : ts_Type :=
  mkType TypeFlags_Union
         (propertyToString
            [declaredIn true "Object"; declaredIn false "Point"])
         [] "({} & Point) | {}" false true [objectAndPoint; plainObject].

Definition rejecting : Options := mkOptions (Some []) (Some true).
Definition rejectingButError : Options :=
  mkOptions (Some ["Error"]) (Some true).
Definition ignoringError : Options := mkOptions (Some ["Error"]) None.
Definition lenient : Options := mkOptions None None.

End Samples.

(** ** Sample nodes *)

Module SampleNodes.

Import Samples.

(** [string]: [toString] is declared in [interface String]. *)
Definition stringType : ts_Type :=
  mkType 4 (propertyToString [declaredIn true "String"])
         [] "string" false false [].

Definition strExpr : Expression := mkExpression OtherNodeType "s" stringType.
Definition objExpr : Expression := mkExpression OtherNodeType "obj" plainObject.
Definition objLiteral : Expression := mkExpression Literal "null" plainObject.
Definition fnExpr : Expression := mkExpression OtherNodeType "fn" arrowFunction.
Definition pointExpr : Expression := mkExpression OtherNodeType "p" pointClass.
Definition errExpr : Expression := mkExpression OtherNodeType "err" errorType.
Definition mixedExpr : Expression :=
  mkExpression OtherNodeType "either" pointOrObject.

(** [s + obj], [obj + s] and [obj + p]. *)
Definition strPlusObj : BinaryNode := mkBinaryNode strExpr objExpr.
Definition objPlusStr : BinaryNode := mkBinaryNode objExpr strExpr.
Definition objPlusPoint : BinaryNode := mkBinaryNode objExpr pointExpr.

(** [#x in obj] has a private identifier on the left; here one stands
    left of a [string]. *)
Definition privExpr : Expression :=
  mkExpression PrivateIdentifier "#x" plainObject.
Definition privPlusStr : BinaryNode := mkBinaryNode privExpr strExpr.

(** What the rule reports for [obj]. *)
Definition objReport : ReportDescriptor :=
  mkReportDescriptor (mkReportData (Some Never) "obj") baseToString objExpr.

(** [obj.toString()]. *)
Definition objToString : PropertyNode :=
  mkPropertyNode (mkMemberExpressionNode objExpr).

(** A template with five expressions, untagged. *)
Definition template : TemplateLiteralNode :=
  mkTemplateLiteralNode OtherNodeType
                        [pointExpr; objExpr; objLiteral; fnExpr; mixedExpr].

Definition visits : list Visit :=
  [visitPlus strPlusObj; visitPlus objPlusPoint; visitToStringCall objToString;
   visitTemplateLiteral template].

End SampleNodes.

(* ================================================================== *)
(** ** Properties *)

Section Properties.

Context {ts : TypeFlags}.
Variable option_ : Options.

#[local] Abbreviation collect := (collectToStringCertainty option_).

(** *** Comparison of verdicts *)

Lemma Usefulness_eqb_eq (a b : Usefulness) :
  Usefulness_eqb a b = true <-> a = b.
Proof.
  split.
  - destruct a, b; intros H; try reflexivity; vm_compute in H; discriminate.
  - intros ->. destruct b; reflexivity.
Qed.

Lemma Usefulness_eqb_neq (a b : Usefulness) :
  Usefulness_eqb a b = false <-> a <> b.
Proof.
  rewrite <- Usefulness_eqb_eq. destruct (Usefulness_eqb a b); intuition congruence.
Qed.

(** *** The function as a cascade of its named conditions *)

Lemma collectToStringCertainty_eq (type : ts_Type) :
  collect type =
    if rejectsFunction option_ type then Function
    else if lacksDeclarations type then Always
    else if isBooleanLike type then Always
    else if isIgnoredTypeName option_ type then Always
    else if JS.every (toStringDeclarations type) notObjectInterface
    then Always
    else if isIntersection type then
      intersectionLoop collect (types type)
    else if negb (isUnion type) then Never
    else
      unionVerdict
        (fold_left (fun st subType => unionStep st (collect subType))
                   (types type) (true, false)).
Proof.
  destruct type as [fl prop sigs name isI isU tys].
  unfold rejectsFunction, lacksDeclarations, isIgnoredTypeName,
    toStringDeclarations.
  cbn [collectToStringCertainty getPropertyOfType getCallSignatures
         getTypeName isIntersection isUnion types flags].
  destruct (JS.truthy (opt_rejectFunctions option_)
            && (0 <? List.length sigs)%nat); [reflexivity|].
  destruct (prop "toString") as [[[ds|]]|]; reflexivity.
Qed.

Lemma rejectsFunction_false (type : ts_Type) :
  JS.truthy (opt_rejectFunctions option_) = false
  \/ getCallSignatures type = [] ->
  rejectsFunction option_ type = false.
Proof.
  unfold rejectsFunction. intros [-> | ->]; [reflexivity|].
  apply andb_false_r.
Qed.

Lemma lacksDeclarations_true (type : ts_Type) :
  lacksDeclarations type = true <->
  (getPropertyOfType type "toString" = None
   \/ exists toString,
       getPropertyOfType type "toString" = Some toString
       /\ (getDeclarations toString = None
           \/ getDeclarations toString = Some [])).
Proof.
  unfold lacksDeclarations.
  destruct (getPropertyOfType type "toString") as [sym|].
  - destruct (getDeclarations sym) as [ds|] eqn:E.
    + destruct ds as [|d ds]; cbn.
      * split; [|reflexivity]. intros _. right. eauto.
      * split; [discriminate|].
        intros [H | (s & Hs & [H | H])]; try discriminate;
          injection Hs as <-; congruence.
    + split; [|reflexivity]. intros _. right. eauto.
  - tauto.
Qed.

Lemma notObjectInterface_false (d : Declaration) :
  notObjectInterface d = false <-> inObjectInterface d.
Proof.
  unfold notObjectInterface, inObjectInterface.
  rewrite orb_false_iff, !negb_false_iff, String.eqb_eq. tauto.
Qed.

Lemma every_notObjectInterface (ds : list Declaration) :
  JS.every ds notObjectInterface = true <->
  Forall (fun d => ~ inObjectInterface d) ds.
Proof.
  unfold JS.every. rewrite forallb_forall, Forall_forall.
  split; intros H d Hd; specialize (H d Hd).
  - rewrite <- notObjectInterface_false. congruence.
  - rewrite <- notObjectInterface_false in H.
    destruct (notObjectInterface d); congruence.
Qed.

Lemma every_notObjectInterface_false (ds : list Declaration) :
  JS.every ds notObjectInterface = false <->
  Exists inObjectInterface ds.
Proof.
  unfold JS.every. induction ds as [|d ds IH]; cbn.
  - split; [discriminate|]. intros H. inversion H.
  - rewrite andb_false_iff, Exists_cons, IH, notObjectInterface_false.
    tauto.
Qed.

Lemma includes_In (l : list string) (x : string) :
  JS.includes l x = true <-> In x l.
Proof.
  unfold JS.includes. rewrite existsb_exists. split.
  - intros (y & Hy & E). apply String.eqb_eq in E. now subst.
  - intros H. exists x. split; [assumption | apply String.eqb_refl].
Qed.

Lemma isBooleanLike_true (type : ts_Type) :
  isBooleanLike type = true <->
  (JS.bitand (flags type) Boolean <> 0
   \/ JS.bitand (flags type) BooleanLiteral <> 0)%Z.
Proof.
  unfold isBooleanLike, JS.truthyZ.
  rewrite orb_true_iff, !negb_true_iff, !Z.eqb_neq. tauto.
Qed.

(** *** The two loops, in terms of the verdicts of the constituents *)

Lemma intersectionLoop_map {A : Type} (rec : A -> Usefulness)
      (l : list A) :
  intersectionLoop rec l =
    if existsb isAlways (map rec l) then Always else Never.
Proof.
  induction l as [|x l IH]; cbn; [reflexivity|].
  unfold isAlways at 1. destruct (Usefulness_eqb (rec x) Always); auto.
Qed.

Lemma unionLoop_map {A : Type} (rec : A -> Usefulness) (l : list A) :
  forall all some : bool,
    fold_left (fun st subType => unionStep st (rec subType)) l (all, some)
    = (all && forallb isAlways (map rec l),
       some || existsb (fun u => negb (isNever u)) (map rec l)).
Proof.
  induction l as [|x l IH]; intros all some; cbn [fold_left map].
  - cbn. now rewrite andb_true_r, orb_false_r.
  - destruct (unionStep (all, some) (rec x)) as [all' some'] eqn:E.
    rewrite IH. cbn [forallb existsb].
    unfold unionStep in E. unfold isAlways, isNever.
    destruct (Usefulness_eqb (rec x) Always),
      (Usefulness_eqb (rec x) Never), all, some;
      cbn in E; injection E as <- <-; reflexivity.
Qed.

Lemma forallb_isAlways (vs : list Usefulness) :
  forallb isAlways vs = true <-> Forall (eq Always) vs.
Proof.
  rewrite forallb_forall, Forall_forall. unfold isAlways.
  split; intros H v Hv; specialize (H v Hv).
  - symmetry. now apply Usefulness_eqb_eq.
  - apply Usefulness_eqb_eq. congruence.
Qed.

Lemma existsb_isAlways (vs : list Usefulness) :
  existsb isAlways vs = true <-> Exists (eq Always) vs.
Proof.
  rewrite existsb_exists, Exists_exists. unfold isAlways.
  split; intros (v & Hv & E); exists v; split; try assumption.
  - symmetry. now apply Usefulness_eqb_eq.
  - apply Usefulness_eqb_eq. congruence.
Qed.

Lemma existsb_notNever (vs : list Usefulness) :
  existsb (fun u => negb (isNever u)) vs = true <->
  Exists (fun v => v <> Never) vs.
Proof.
  rewrite existsb_exists, Exists_exists. unfold isNever.
  split; intros (v & Hv & E); exists v; split; try assumption.
  - apply Usefulness_eqb_neq. now apply negb_true_iff.
  - apply negb_true_iff. now apply Usefulness_eqb_neq.
Qed.

Lemma existsb_notNever_false (vs : list Usefulness) :
  existsb (fun u => negb (isNever u)) vs = false <->
  Forall (eq Never) vs.
Proof.
  induction vs as [|v vs IH]; cbn.
  - split; [constructor | reflexivity].
  - rewrite orb_false_iff, IH, negb_false_iff. unfold isNever.
    rewrite Usefulness_eqb_eq. split.
    + intros [-> H]. now constructor.
    + intros H. inversion H; subst. tauto.
Qed.

(** What is left of the function once control is past line 129. *)
Lemma collectToStringCertainty_decomposition (type : ts_Type) :
  reachesDecomposition option_ type = true ->
  collect type =
    if isIntersection type then
      if existsb isAlways (subtypeVerdicts option_ type)
      then Always else Never
    else if negb (isUnion type) then Never
    else
      unionVerdict
        (forallb isAlways (subtypeVerdicts option_ type),
         existsb (fun u => negb (isNever u))
                 (subtypeVerdicts option_ type)).
Proof.
  unfold reachesDecomposition. rewrite !andb_true_iff, !negb_true_iff.
  intros ((((H1 & H2) & H3) & H4) & H5).
  rewrite collectToStringCertainty_eq, H1, H2, H3, H4, H5.
  now rewrite intersectionLoop_map, unionLoop_map.
Qed.

(** *** The bounded call stack *)

Lemma collectToStringCertaintyFuel_eq (fuel : nat) (type : ts_Type) :
  collectToStringCertaintyFuel option_ (S fuel) type =
    if rejectsFunction option_ type then Some Function
    else if lacksDeclarations type then Some Always
    else if isBooleanLike type then Some Always
    else if isIgnoredTypeName option_ type then Some Always
    else if JS.every (toStringDeclarations type) notObjectInterface
    then Some Always
    else if isIntersection type then
      intersectionLoopFuel
        (collectToStringCertaintyFuel option_ fuel) (types type)
    else if negb (isUnion type) then Some Never
    else
      option_map unionVerdict
        (unionLoopFuel (collectToStringCertaintyFuel option_ fuel)
                       (types type) (true, false)).
Proof.
  destruct type as [fl prop sigs name isI isU tys].
  unfold rejectsFunction, lacksDeclarations, isIgnoredTypeName,
    toStringDeclarations.
  cbn [collectToStringCertaintyFuel getPropertyOfType getCallSignatures
         getTypeName isIntersection isUnion types flags].
  destruct (JS.truthy (opt_rejectFunctions option_)
            && (0 <? List.length sigs)%nat); [reflexivity|].
  destruct (prop "toString") as [[[ds|]]|]; reflexivity.
Qed.

Lemma intersectionLoopFuel_agrees {A : Type}
      (recF : A -> option Usefulness) (rec : A -> Usefulness)
      (l : list A) :
  Forall (fun x => recF x = Some (rec x)) l ->
  intersectionLoopFuel recF l = Some (intersectionLoop rec l).
Proof.
  induction 1 as [|x l Hx _ IH]; cbn; [reflexivity|].
  rewrite Hx. destruct (Usefulness_eqb (rec x) Always); auto.
Qed.

Lemma unionLoopFuel_agrees {A : Type}
      (recF : A -> option Usefulness) (rec : A -> Usefulness)
      (l : list A) :
  Forall (fun x => recF x = Some (rec x)) l ->
  forall st,
    unionLoopFuel recF l st =
      Some (fold_left (fun st subType => unionStep st (rec subType)) l st).
Proof.
  induction 1 as [|x l Hx _ IH]; intros st; cbn; [reflexivity|].
  rewrite Hx. apply IH.
Qed.

Lemma nestingDepth_types (type subType : ts_Type) :
  isIntersection type || isUnion type = true ->
  In subType (types type) ->
  S (nestingDepth subType) <= nestingDepth type.
Proof.
  intros Hc Hin. destruct type as [fl prop sigs name isI isU tys].
  cbn [nestingDepth isIntersection isUnion types] in *. rewrite Hc.
  apply le_n_S.
  assert (H : Forall (fun k => k <= list_max (map nestingDepth tys))
                     (map nestingDepth tys))
    by (apply list_max_le; reflexivity).
  rewrite Forall_forall in H. apply H. now apply in_map.
Qed.

Lemma collectToStringCertaintyFuel_enough (fuel : nat) :
  forall type : ts_Type,
    nestingDepth type < fuel ->
    collectToStringCertaintyFuel option_ fuel type = Some (collect type).
Proof.
  induction fuel as [|fuel IH]; intros type Hd; [inversion Hd|].
  rewrite collectToStringCertaintyFuel_eq, collectToStringCertainty_eq.
  repeat match goal with
         | |- (if ?c then Some _ else _) = Some (if ?c then _ else _) =>
             destruct c; [reflexivity|]
         end.
  assert (Hsub : isIntersection type || isUnion type = true ->
                 Forall (fun x => collectToStringCertaintyFuel
                                    option_ fuel x = Some (collect x))
                        (types type)).
  { intros Hc. apply Forall_forall. intros x Hx. apply IH.
    pose proof (nestingDepth_types type x Hc Hx). lia. }
  destruct (isIntersection type) eqn:HI.
  - apply intersectionLoopFuel_agrees. now apply Hsub.
  - destruct (isUnion type) eqn:HU; cbn [negb]; [|reflexivity].
    rewrite (unionLoopFuel_agrees _ collect) by now apply Hsub.
    reflexivity.
Qed.

(* ---------------------------------------------------------------- *)
(** *** The rules, one by one *)

(** C2. With [rejectFunctions] on, a type with at least one call
    signature is classified [Function], whatever its name and whatever
    [ignoredTypeNames] holds: the test is the first the function makes. *)
Theorem function_rejection_precedence (type : ts_Type) :
  opt_rejectFunctions option_ = Some true ->
  getCallSignatures type <> [] ->
  collect type = Function.
Proof.
  intros Hr Hs. rewrite collectToStringCertainty_eq.
  unfold rejectsFunction. rewrite Hr.
  destruct (getCallSignatures type); [contradiction | reflexivity].
Qed.

(** C4. Where the function rule does not fire, a type with no
    [toString] member, or whose member has no declaration, is classified
    [Always] (and so not [Never]). *)
Theorem absence_of_evidence (type : ts_Type) :
  JS.truthy (opt_rejectFunctions option_) = false
  \/ getCallSignatures type = [] ->
  (getPropertyOfType type "toString" = None
   \/ exists toString,
       getPropertyOfType type "toString" = Some toString
       /\ (getDeclarations toString = None
           \/ getDeclarations toString = Some [])) ->
  collect type = Always /\ collect type <> Never.
Proof.
  intros Hf Hd. apply rejectsFunction_false in Hf.
  apply lacksDeclarations_true in Hd.
  rewrite collectToStringCertainty_eq, Hf, Hd. split; congruence.
Qed.

(** C6. A type with a boolean flag and no call signature is classified
    [Always] under every configuration. *)
Theorem boolean_carve_out (type : ts_Type) :
  (JS.bitand (flags type) Boolean <> 0
   \/ JS.bitand (flags type) BooleanLiteral <> 0)%Z ->
  getCallSignatures type = [] ->
  collect type = Always.
Proof.
  intros Hb Hs. apply isBooleanLike_true in Hb.
  rewrite collectToStringCertainty_eq,
    (rejectsFunction_false type (or_intror Hs)), Hb.
  destruct (lacksDeclarations type); reflexivity.
Qed.

(** C7. A type whose name is one of [ignoredTypeNames] is classified
    [Always], provided [rejectFunctions] is off or the type has no call
    signature. *)
Theorem override_list_rule (type : ts_Type) :
  In (getTypeName type) (ignoredTypeNames option_) ->
  JS.truthy (opt_rejectFunctions option_) = false
  \/ getCallSignatures type = [] ->
  collect type = Always.
Proof.
  intros Hn Hf. apply rejectsFunction_false in Hf.
  apply includes_In in Hn.
  rewrite collectToStringCertainty_eq, Hf.
  unfold isIgnoredTypeName. rewrite Hn.
  destruct (lacksDeclarations type), (isBooleanLike type); reflexivity.
Qed.

(** C5. For a type that is neither union nor intersection, has no
    boolean flag, has at least one declaration of [toString], is not
    named in [ignoredTypeNames] and does not trigger the function rule:
    if no declaration sits in the interface [Object] the verdict is
    [Always]; if at least one does, the verdict is [Never]. *)
Theorem base_stringifier_rule (type : ts_Type) (toString : Symbol)
        (declarations : list Declaration) :
  JS.truthy (opt_rejectFunctions option_) = false
  \/ getCallSignatures type = [] ->
  isIntersection type = false ->
  isUnion type = false ->
  isBooleanLike type = false ->
  getPropertyOfType type "toString" = Some toString ->
  getDeclarations toString = Some declarations ->
  declarations <> [] ->
  ~ In (getTypeName type) (ignoredTypeNames option_) ->
  (Forall (fun d => ~ inObjectInterface d) declarations ->
   collect type = Always)
  /\ (Exists inObjectInterface declarations ->
      collect type = Never).
Proof.
  intros Hf HI HU Hb Hp Hd Hne Hn.
  apply rejectsFunction_false in Hf.
  assert (Hl : lacksDeclarations type = false).
  { unfold lacksDeclarations. rewrite Hp, Hd.
    destruct declarations; [contradiction | reflexivity]. }
  assert (Hi : isIgnoredTypeName option_ type = false).
  { unfold isIgnoredTypeName.
    destruct (JS.includes _ _) eqn:E; [|reflexivity].
    apply includes_In in E. contradiction. }
  assert (Ht : toStringDeclarations type = declarations).
  { unfold toStringDeclarations. now rewrite Hp, Hd. }
  rewrite collectToStringCertainty_eq, Hf, Hl, Hb, Hi, Ht, HI, HU.
  split.
  - intros H. apply every_notObjectInterface in H. now rewrite H.
  - intros H. apply every_notObjectInterface_false in H. now rewrite H.
Qed.

(* ---------------------------------------------------------------- *)
(** *** Unions and intersections *)

(** C3. An intersection that reaches the decomposition is [Always] when
    some constituent is [Always] and [Never] otherwise; it is never
    [Sometimes]. *)
Theorem intersection_merge_law (type : ts_Type) :
  reachesDecomposition option_ type = true ->
  isIntersection type = true ->
  (Exists (eq Always) (subtypeVerdicts option_ type) ->
   collect type = Always)
  /\ (~ Exists (eq Always) (subtypeVerdicts option_ type) ->
      collect type = Never)
  /\ collect type <> Sometimes.
Proof.
  intros Hr HI.
  rewrite (collectToStringCertainty_decomposition type Hr), HI.
  destruct (existsb isAlways _) eqn:E.
  - apply existsb_isAlways in E.
    split; [reflexivity | split; [contradiction | discriminate]].
  - split; [|split; [reflexivity | discriminate]].
    intros H. apply existsb_isAlways in H. congruence.
Qed.

(** C1, as the code has it. For a union that reaches the decomposition,
    with [vs] the verdicts of its constituents: if there is at least one
    constituent and every verdict is [Always], the union is [Always]; if
    some verdict is not [Never] and not every verdict is [Always], the
    union is [Sometimes]; if every verdict is [Never], the union is
    [Never]. *)
Theorem union_merge_law (type : ts_Type) :
  reachesDecomposition option_ type = true ->
  isIntersection type = false ->
  isUnion type = true ->
  (subtypeVerdicts option_ type <> [] ->
   Forall (eq Always) (subtypeVerdicts option_ type) ->
   collect type = Always)
  /\ (Exists (fun v => v <> Never) (subtypeVerdicts option_ type) ->
      ~ Forall (eq Always) (subtypeVerdicts option_ type) ->
      collect type = Sometimes)
  /\ (Forall (eq Never) (subtypeVerdicts option_ type) ->
      collect type = Never).
Proof.
  intros Hr HI HU.
  rewrite (collectToStringCertainty_decomposition type Hr), HI, HU.
  cbn [negb]. set (vs := subtypeVerdicts option_ type).
  repeat split.
  - intros Hne Hall.
    assert (Hsome : Exists (fun v => v <> Never) vs).
    { destruct vs as [|v vs']; [contradiction|].
      inversion Hall; subst. left. discriminate. }
    apply forallb_isAlways in Hall. apply existsb_notNever in Hsome.
    now rewrite Hall, Hsome.
  - intros Hsome Hall. apply existsb_notNever in Hsome.
    rewrite Hsome. destruct (forallb isAlways vs) eqn:E; [|reflexivity].
    apply forallb_isAlways in E. contradiction.
  - intros Hnone. apply existsb_notNever_false in Hnone.
    rewrite Hnone. cbn. now rewrite andb_false_r.
Qed.

(** C8. Merging never yields [Function]: a union or intersection that
    reaches the decomposition gets [Always], [Never] or [Sometimes]; and
    the function returns [Function] exactly when the test of its first
    line holds for the type it was called on. *)
Theorem function_only_from_first_rule (type : ts_Type) :
  (reachesDecomposition option_ type = true ->
   isIntersection type = true \/ isUnion type = true ->
   In (collect type) [Always; Never; Sometimes])
  /\ (collect type = Function <-> rejectsFunction option_ type = true).
Proof.
  split.
  - intros Hr _.
    rewrite (collectToStringCertainty_decomposition type Hr).
    generalize (existsb isAlways (subtypeVerdicts option_ type)),
      (forallb isAlways (subtypeVerdicts option_ type)),
      (existsb (fun u => negb (isNever u)) (subtypeVerdicts option_ type)).
    intros a b c.
    destruct (isIntersection type), (isUnion type), a, b, c; cbn; tauto.
  - rewrite collectToStringCertainty_eq, intersectionLoop_map,
      unionLoop_map.
    generalize (existsb isAlways (map collect (types type))),
      (forallb isAlways (map collect (types type))),
      (existsb (fun u => negb (isNever u)) (map collect (types type))),
      (JS.every (toStringDeclarations type) notObjectInterface).
    intros a b c d.
    destruct (rejectsFunction option_ type), (lacksDeclarations type),
      (isBooleanLike type), (isIgnoredTypeName option_ type),
      d, (isIntersection type), (isUnion type), a, b, c;
      cbn; split; congruence.
Qed.

(** C9. On every type (a finite tree of constituents) and under every
    configuration the function returns one of the four verdicts, and a
    call stack of one activation more than the nesting depth of unions
    and intersections in the type is enough for it to return that
    verdict. *)
Theorem collectToStringCertainty_total (type : ts_Type) :
  In (collect type) [Always; Never; Sometimes; Function]
  /\ (forall fuel : nat,
        nestingDepth type < fuel ->
        collectToStringCertaintyFuel option_ fuel type
        = Some (collect type)).
Proof.
  split.
  - destruct (collect type); cbn; tauto.
  - intros fuel. apply collectToStringCertaintyFuel_enough.
Qed.

End Properties.

(** C10. With no options from the user, [create] receives exactly
    [defaultOptions[0]]: the names [Error], [RegExp], [URL] and
    [URLSearchParams], and [rejectFunctions] false. *)
Theorem default_configuration :
  exists option_ : Options,
    createOption [] = Some option_
    /\ ignoredTypeNames option_ = ["Error"; "RegExp"; "URL"; "URLSearchParams"]
    /\ opt_rejectFunctions option_ = Some false
    /\ JS.truthy (opt_rejectFunctions option_) = false.
Proof.
  eexists. split; [reflexivity|]. repeat split.
Qed.

(* ================================================================== *)
(** ** The properties at the sample types *)

Section AtSamples.

Import Samples.

Lemma function_rejection_precedence_witness :
  In (getTypeName callableError) (ignoredTypeNames rejectingButError)
  /\ collectToStringCertainty rejectingButError callableError = Function.
Proof.
  split; [vm_compute; tauto|].
  apply (function_rejection_precedence rejectingButError callableError).
  - reflexivity.
  - vm_compute. discriminate.
Defined.

Lemma absence_of_evidence_witness :
  collectToStringCertainty rejecting bare = Always
  /\ collectToStringCertainty rejecting bare <> Never.
Proof.
  apply (absence_of_evidence rejecting bare).
  - right. reflexivity.
  - left. reflexivity.
Defined.

Lemma boolean_carve_out_witness :
  collectToStringCertainty rejecting booleanType = Always.
Proof.
  apply (boolean_carve_out rejecting booleanType).
  - left. vm_compute. discriminate.
  - reflexivity.
Defined.

Lemma override_list_rule_witness :
  collectToStringCertainty ignoringError errorType = Always.
Proof.
  apply (override_list_rule ignoringError errorType).
  - vm_compute. tauto.
  - left. reflexivity.
Defined.

Lemma base_stringifier_rule_witness :
  collectToStringCertainty lenient pointClass = Always
  /\ collectToStringCertainty lenient plainObject = Never.
Proof.
  split.
  - apply (base_stringifier_rule lenient pointClass
             (mkSymbol (Some [declaredIn false "Point"]))
             [declaredIn false "Point"]);
      try reflexivity.
    + left. reflexivity.
    + discriminate.
    + vm_compute. tauto.
    + constructor; [|constructor]. vm_compute. intros [H _]. discriminate.
  - apply (base_stringifier_rule lenient plainObject
             (mkSymbol (Some [declaredIn true "Object"]))
             [declaredIn true "Object"]);
      try reflexivity.
    + left. reflexivity.
    + discriminate.
    + vm_compute. tauto.
    + left. vm_compute. split; reflexivity.
Defined.

Lemma intersection_merge_law_witness :
  collectToStringCertainty lenient objectAndPoint = Always.
Proof.
  destruct (intersection_merge_law (ts := tsTypeFlags) lenient objectAndPoint
              eq_refl eq_refl) as (H & _ & _).
  apply H. vm_compute. right. left. reflexivity.
Defined.

Lemma union_merge_law_witness :
  collectToStringCertainty ignoringError pointOrError = Always
  /\ collectToStringCertainty rejecting functionOrObject = Sometimes
  /\ collectToStringCertainty lenient objectOrRecord = Never.
Proof.
  split; [|split].
  - destruct (union_merge_law (ts := tsTypeFlags) ignoringError pointOrError
                eq_refl eq_refl eq_refl) as (H & _ & _).
    apply H; vm_compute; [discriminate | repeat constructor].
  - destruct (union_merge_law (ts := tsTypeFlags) rejecting functionOrObject
                eq_refl eq_refl eq_refl) as (_ & H & _).
    apply H; vm_compute.
    + left. discriminate.
    + intros Hall. inversion Hall. discriminate.
  - destruct (union_merge_law (ts := tsTypeFlags) lenient objectOrRecord
                eq_refl eq_refl eq_refl) as (_ & _ & H).
    apply H. vm_compute. repeat constructor.
Defined.

(** C1, as the specification words it, fails on [(() => void) | {}] with
    [rejectFunctions] on: the verdicts of the constituents are [Function]
    and [Never], none of them [Always], and the union is [Sometimes]. *)
Lemma union_law_as_stated_fails :
  reachesDecomposition rejecting functionOrObject = true
  /\ isUnion functionOrObject = true
  /\ subtypeVerdicts rejecting functionOrObject = [Function; Never]
  /\ collectToStringCertainty rejecting functionOrObject = Sometimes
  /\ ~ unionLawAsStated rejecting functionOrObject.
Proof.
  repeat split; try reflexivity.
  intros (_ & _ & H).
  assert (E : collectToStringCertainty rejecting functionOrObject = Never).
  { apply H. vm_compute. intros Hex.
    inversion Hex as [? ? H0 | ? ? H0]; subst; [discriminate|].
    inversion H0 as [? ? H1 | ? ? H1]; subst; [discriminate|].
    inversion H1. }
  vm_compute in E. discriminate.
Qed.

Lemma function_only_from_first_rule_witness :
  In (collectToStringCertainty rejecting functionOrObject)
     [Always; Never; Sometimes]
  /\ rejectsFunction rejecting arrowFunction = true.
Proof.
  split.
  - destruct (function_only_from_first_rule rejecting functionOrObject)
      as (H & _).
    apply H; [reflexivity | right; reflexivity].
  - destruct (function_only_from_first_rule rejecting arrowFunction)
      as (_ & H).
    apply H. reflexivity.
Defined.

Lemma collectToStringCertainty_total_witness :
  nestingDepth nested < 3
  /\ collectToStringCertaintyFuel lenient 3 nested = Some Sometimes.
Proof.
  split; [vm_compute; lia|].
  destruct (collectToStringCertainty_total lenient nested) as (_ & H).
  apply (H 3). vm_compute. lia.
Defined.

End AtSamples.

(* ================================================================== *)
(** ** The listeners and the reports they make *)

(** Induction on a type with the property at hand for every constituent. *)
Lemma ts_Type_ind (P : ts_Type -> Prop) :
  (forall type : ts_Type, Forall P (types type) -> P type) ->
  forall type : ts_Type, P type.
Proof.
  intros step. fix IH 1. intros [fl prop sigs name isI isU tys].
  apply step. cbn [types].
  refine ((fix all (l : list ts_Type) : Forall P l :=
             match l with
             | [] => Forall_nil P
             | x :: rest => Forall_cons x (IH x) (all rest)
             end) tys).
Qed.

Lemma AST_NODE_TYPES_eqb_eq (a b : AST_NODE_TYPES) :
  AST_NODE_TYPES_eqb a b = true <-> a = b.
Proof.
  destruct a, b; cbn; split; intros H; try reflexivity; discriminate.
Qed.

Lemma fold_left_appends {A R : Type} (f : A -> list R -> list R) :
  (forall a rs, f a rs = rs ++ f a []) ->
  forall l rs,
    fold_left (fun rs a => f a rs) l rs = rs ++ flat_map (fun a => f a []) l.
Proof.
  intros Hf. induction l as [|a l IH]; intros rs; cbn.
  - now rewrite app_nil_r.
  - rewrite IH, (Hf a rs). now rewrite <- app_assoc.
Qed.

Section Reporting.

Context {ts : TypeFlags}.
Variable option_ : Options.

#[local] Abbreviation collect := (collectToStringCertainty option_).

Lemma checkExpression_appends (e : Expression) (type : option ts_Type)
      (reports : list ReportDescriptor) :
  checkExpression option_ e type reports
  = reports ++ checkExpression option_ e type [].
Proof.
  unfold checkExpression, report.
  destruct (AST_NODE_TYPES_eqb _ _); [now rewrite app_nil_r|].
  destruct (Usefulness_eqb _ Always); [now rewrite app_nil_r|].
  destruct (Usefulness_eqb _ Function); reflexivity.
Qed.

Lemma onPlus_appends (n : BinaryNode) (reports : list ReportDescriptor) :
  onPlus option_ n reports = reports ++ onPlus option_ n [].
Proof.
  unfold onPlus.
  destruct (String.eqb _ _); [apply checkExpression_appends|].
  destruct (_ && _); [apply checkExpression_appends|].
  now rewrite app_nil_r.
Qed.

Lemma onTemplateLiteral_flat_map (n : TemplateLiteralNode)
      (reports : list ReportDescriptor) :
  onTemplateLiteral option_ n reports
  = reports
      ++ (if AST_NODE_TYPES_eqb (template_parent_type n)
                                TaggedTemplateExpression
          then []
          else flat_map (fun e => checkExpression option_ e None [])
                        (expressions n)).
Proof.
  unfold onTemplateLiteral.
  destruct (AST_NODE_TYPES_eqb _ _); [now rewrite app_nil_r|].
  apply (fold_left_appends (fun e rs => checkExpression option_ e None rs)).
  intros e rs. apply checkExpression_appends.
Qed.

Lemma listener_appends (v : Visit) (reports : list ReportDescriptor) :
  listener option_ v reports = reports ++ listener option_ v [].
Proof.
  destruct v as [n | n | n]; cbn [listener].
  - apply onPlus_appends.
  - apply checkExpression_appends.
  - now rewrite (onTemplateLiteral_flat_map n reports),
      (onTemplateLiteral_flat_map n []).
Qed.

Lemma traverse_flat_map (visits : list Visit)
      (reports : list ReportDescriptor) :
  traverse option_ visits reports
  = reports ++ flat_map (fun v => listener option_ v []) visits.
Proof.
  apply (fold_left_appends (listener option_)). apply listener_appends.
Qed.

(** What one call on a node and the type at its location reports. *)
Lemma checkExpression_at_location (e : Expression) (type : option ts_Type) :
  JS.nullish type (getTypeAtLocation e) = getTypeAtLocation e ->
  map node (checkExpression option_ e type [])
  = (if reportable option_ e then [e] else [])
  /\ Forall (justified option_) (checkExpression option_ e type []).
Proof.
  intros Ht. unfold checkExpression, reportable, report, isAlways.
  rewrite Ht.
  destruct (AST_NODE_TYPES_eqb (node_type e) Literal) eqn:El;
    [split; [reflexivity | constructor]|].
  assert (Hl : node_type e <> Literal).
  { intros H. apply AST_NODE_TYPES_eqb_eq in H. congruence. }
  cbn [negb andb].
  destruct (collect (getTypeAtLocation e)) eqn:Ec; cbn;
    (split; [reflexivity|]); [constructor | | |];
    (constructor; [|constructor]); unfold justified; cbn; rewrite Ec;
    (split; [assumption | split; [reflexivity|]]).
  - right. cbn. tauto.
  - right. cbn. tauto.
  - left. tauto.
Qed.

Lemma plusOperand_spec (n : BinaryNode) :
  map node (onPlus option_ n [])
  = filter (reportable option_) (plusOperand n)
  /\ Forall (justified option_) (onPlus option_ n []).
Proof.
  unfold onPlus, plusOperand.
  destruct (String.eqb _ _).
  - destruct (checkExpression_at_location (right n)
                (Some (getTypeAtLocation (right n))) eq_refl) as [H1 H2].
    split; [|exact H2]. rewrite H1. cbn.
    destruct (reportable option_ (right n)); reflexivity.
  - destruct (_ && _).
    + destruct (checkExpression_at_location (left n)
                  (Some (getTypeAtLocation (left n))) eq_refl) as [H1 H2].
      split; [|exact H2]. rewrite H1. cbn.
      destruct (reportable option_ (left n)); reflexivity.
    + split; [reflexivity | constructor].
Qed.

Lemma checked_flat_map (l : list Expression) :
  map node (flat_map (fun e => checkExpression option_ e None []) l)
  = filter (reportable option_) l
  /\ Forall (justified option_)
            (flat_map (fun e => checkExpression option_ e None []) l).
Proof.
  induction l as [|e l [IH1 IH2]]; cbn [flat_map filter map].
  - split; [reflexivity | constructor].
  - destruct (checkExpression_at_location e None eq_refl) as [H1 H2].
    rewrite map_app, H1, IH1. split.
    + destruct (reportable option_ e); reflexivity.
    + apply Forall_app. now split.
Qed.

Lemma listener_spec (v : Visit) :
  map node (listener option_ v [])
  = filter (reportable option_) (checkedExpressions v)
  /\ Forall (justified option_) (listener option_ v []).
Proof.
  destruct v as [n | n | n]; cbn [listener checkedExpressions].
  - apply plusOperand_spec.
  - unfold onToStringCall.
    destruct (checkExpression_at_location (object (property_parent n))
                None eq_refl) as [H1 H2].
    split; [|exact H2]. rewrite H1. cbn.
    destruct (reportable option_ _); reflexivity.
  - rewrite (onTemplateLiteral_flat_map n []). cbn [app].
    destruct (AST_NODE_TYPES_eqb _ _).
    + split; [reflexivity | constructor].
    + apply checked_flat_map.
Qed.

Lemma traverse_spec (visits : list Visit) :
  map node (traverse option_ visits [])
  = filter (reportable option_) (flat_map checkedExpressions visits)
  /\ Forall (justified option_) (traverse option_ visits []).
Proof.
  rewrite traverse_flat_map. cbn [app].
  induction visits as [|v visits [IH1 IH2]]; cbn [flat_map].
  - split; [reflexivity | constructor].
  - destruct (listener_spec v) as [H1 H2].
    rewrite map_app, filter_app, H1, IH1. split; [reflexivity|].
    apply Forall_app. now split.
Qed.

(** What the function returns when it does not reach line 131. *)
Lemma short_circuit_verdict (type : ts_Type) :
  reachesDecomposition option_ type = false ->
  (collect type = Function /\ rejectsFunction option_ type = true)
  \/ (collect type = Always /\ rejectsFunction option_ type = false).
Proof.
  unfold reachesDecomposition. rewrite collectToStringCertainty_eq.
  destruct (rejectsFunction option_ type); [tauto|].
  destruct (lacksDeclarations type); [tauto|].
  destruct (isBooleanLike type); [tauto|].
  destruct (isIgnoredTypeName option_ type); [tauto|].
  destruct (JS.every _ _); [tauto | discriminate].
Qed.

Lemma collect_Function_rejects (type : ts_Type) :
  collect type = Function -> rejectsFunction option_ type = true.
Proof.
  destruct (reachesDecomposition option_ type) eqn:Hr.
  - rewrite (collectToStringCertainty_decomposition option_ type Hr).
    generalize (existsb isAlways (subtypeVerdicts option_ type)),
      (forallb isAlways (subtypeVerdicts option_ type)),
      (existsb (fun u => negb (isNever u)) (subtypeVerdicts option_ type)).
    intros a b c.
    destruct (isIntersection type), (isUnion type), a, b, c; cbn;
      discriminate.
  - destruct (short_circuit_verdict type Hr) as [[_ H] | [H _]];
      [tauto | congruence].
Qed.

Lemma collect_ignored_Always (type : ts_Type) :
  rejectsFunction option_ type = false ->
  isIgnoredTypeName option_ type = true ->
  collect type = Always.
Proof.
  intros Hf Hi. rewrite collectToStringCertainty_eq, Hf, Hi.
  destruct (lacksDeclarations type), (isBooleanLike type); reflexivity.
Qed.

(* ---------------------------------------------------------------- *)
(** *** Reports of a traversal *)

(** X1. The listeners only add reports: the reports made before a
    traversal stay in front, unchanged and in order, and what the
    traversal adds does not depend on them. *)
Theorem traverse_keeps_earlier_reports (visits : list Visit)
        (reports : list ReportDescriptor) :
  traverse option_ visits reports
  = reports ++ traverse option_ visits [].
Proof.
  now rewrite (traverse_flat_map visits reports),
    (traverse_flat_map visits []).
Qed.

(** X2. The nodes a traversal reports are, in order, the checked
    expressions that are not literals and whose type is not classified
    [Always]; none is reported twice for one check, so there are at most
    as many reports as checked expressions. *)
Theorem traverse_reported_nodes (visits : list Visit) :
  map node (traverse option_ visits [])
  = filter (reportable option_) (flat_map checkedExpressions visits)
  /\ List.length (traverse option_ visits [])
     <= List.length (flat_map checkedExpressions visits).
Proof.
  destruct (traverse_spec visits) as [H _]. split; [exact H|].
  rewrite <- (length_map node), H. apply filter_length_le.
Qed.

(** X3. Every report of a traversal is justified by the type at the
    location of its node: the node is not a literal, [name] is its source
    text, and either the report is [fnToString] and the type is classified
    [Function], or it is [baseToString] and its [certainty] is the verdict
    of the type, which reads [will] or [may]. *)
Theorem traverse_reports_justified (visits : list Visit) :
  Forall (justified option_) (traverse option_ visits []).
Proof.
  apply traverse_spec.
Qed.

(** X4. Unless [rejectFunctions] is on, no traversal ever makes an
    [fnToString] report. *)
Theorem no_function_report_without_rejectFunctions (visits : list Visit) :
  JS.truthy (opt_rejectFunctions option_) = false ->
  Forall (fun r => messageId r = baseToString)
         (traverse option_ visits []).
Proof.
  intros Hoff.
  eapply Forall_impl; [|apply (traverse_spec visits)].
  intros r (_ & _ & [(_ & _ & Hf) | (Hb & _)]); [|exact Hb].
  apply collect_Function_rejects in Hf.
  unfold rejectsFunction in Hf. rewrite Hoff in Hf. discriminate.
Qed.

(** X5. [checkExpression] leaves the reports as they are exactly when the
    node is a literal or the type it classifies (the one passed, else the
    one at the node) is [Always]. *)
Theorem checkExpression_silent_iff (e : Expression) (type : option ts_Type)
        (reports : list ReportDescriptor) :
  checkExpression option_ e type reports = reports
  <-> (node_type e = Literal
       \/ collect (JS.nullish type (getTypeAtLocation e)) = Always).
Proof.
  rewrite checkExpression_appends.
  rewrite <- (app_nil_r reports) at 2.
  split.
  - intros H. apply app_inv_head in H. revert H.
    unfold checkExpression, report.
    destruct (AST_NODE_TYPES_eqb _ _) eqn:El.
    + intros _. left. now apply AST_NODE_TYPES_eqb_eq.
    + destruct (Usefulness_eqb _ Always) eqn:Ea.
      * intros _. right. now apply Usefulness_eqb_eq.
      * destruct (Usefulness_eqb _ Function); discriminate.
  - intros H. f_equal. unfold checkExpression.
    destruct H as [H | H].
    + apply AST_NODE_TYPES_eqb_eq in H. now rewrite H.
    + apply Usefulness_eqb_eq in H. rewrite H.
      destruct (AST_NODE_TYPES_eqb _ _); reflexivity.
Qed.

(** X6. The listener of [+] and [+=] reports nothing when neither operand
    has the type name [string], nor when only the right one has it and the
    left one is a private identifier; and a node it reports is the right
    operand beside a left [string], or else the left operand beside a
    right [string]. *)
Theorem plus_checks_the_operand_beside_a_string (n : BinaryNode) :
  (getTypeName (getTypeAtLocation (left n)) <> "string" ->
   getTypeName (getTypeAtLocation (right n)) <> "string" ->
   forall reports, onPlus option_ n reports = reports)
  /\ (getTypeName (getTypeAtLocation (left n)) <> "string" ->
      node_type (left n) = PrivateIdentifier ->
      forall reports, onPlus option_ n reports = reports)
  /\ (forall r,
        In r (onPlus option_ n []) ->
        (getTypeName (getTypeAtLocation (left n)) = "string"
         /\ node r = right n)
        \/ (getTypeName (getTypeAtLocation (left n)) <> "string"
            /\ getTypeName (getTypeAtLocation (right n)) = "string"
            /\ node_type (left n) <> PrivateIdentifier
            /\ node r = left n)).
Proof.
  repeat split.
  - intros Hl Hr reports. unfold onPlus.
    apply String.eqb_neq in Hl, Hr. now rewrite Hl, Hr.
  - intros Hl Hp reports. unfold onPlus.
    apply String.eqb_neq in Hl. rewrite Hl, Hp. cbn.
    now rewrite andb_false_r.
  - intros r Hin. apply (in_map node) in Hin.
    destruct (plusOperand_spec n) as [H _]. rewrite H in Hin.
    apply filter_In in Hin. destruct Hin as [Hin _].
    unfold plusOperand in Hin.
    destruct (String.eqb _ _) eqn:El.
    + left. apply String.eqb_eq in El. destruct Hin as [<- | []]. tauto.
    + right. apply String.eqb_neq in El.
      destruct (String.eqb _ _) eqn:Er; cbn in Hin; [|contradiction].
      destruct (AST_NODE_TYPES_eqb _ _) eqn:Ep; cbn in Hin;
        [contradiction|].
      apply String.eqb_eq in Er. destruct Hin as [<- | []].
      repeat split; try assumption.
      intros Hp. apply AST_NODE_TYPES_eqb_eq in Hp. congruence.
Qed.

End Reporting.

(* ================================================================== *)
(** ** Verdicts across configurations and constituents *)

Section Verdicts.

Context {ts : TypeFlags}.

Lemma permissive_Always (o o' : Options) :
  permissive o o' ->
  forall type : ts_Type,
    collectToStringCertainty o type = Always ->
    collectToStringCertainty o' type = Always.
Proof.
  intros [Hnames Hrej]. induction type as [type IH] using ts_Type_ind.
  rewrite !collectToStringCertainty_eq, !intersectionLoop_map,
    !unionLoop_map.
  assert (Hr : rejectsFunction o' type = true ->
               rejectsFunction o type = true).
  { unfold rejectsFunction. rewrite !andb_true_iff. intuition. }
  assert (Hi : isIgnoredTypeName o type = true ->
               isIgnoredTypeName o' type = true).
  { unfold isIgnoredTypeName. rewrite !includes_In. apply Hnames. }
  assert (Hall : forallb isAlways (map (collectToStringCertainty o)
                                       (types type)) = true ->
                 forallb isAlways (map (collectToStringCertainty o')
                                       (types type)) = true).
  { rewrite !forallb_forall. intros H v Hv.
    apply in_map_iff in Hv. destruct Hv as (x & <- & Hx).
    rewrite Forall_forall in IH. unfold isAlways.
    apply Usefulness_eqb_eq, IH; [assumption|].
    apply Usefulness_eqb_eq. apply (H _ (in_map _ _ _ Hx)). }
  assert (Hex : existsb isAlways (map (collectToStringCertainty o)
                                      (types type)) = true ->
                existsb isAlways (map (collectToStringCertainty o')
                                      (types type)) = true).
  { rewrite !existsb_exists. intros (v & Hv & E).
    apply in_map_iff in Hv. destruct Hv as (x & <- & Hx).
    exists (collectToStringCertainty o' x). split; [now apply in_map|].
    rewrite Forall_forall in IH. unfold isAlways in *.
    apply Usefulness_eqb_eq, IH; [assumption|].
    now apply Usefulness_eqb_eq. }
  destruct (rejectsFunction o type); [discriminate|].
  destruct (rejectsFunction o' type); [now discriminate Hr|].
  destruct (lacksDeclarations type); [reflexivity|].
  destruct (isBooleanLike type); [reflexivity|].
  destruct (isIgnoredTypeName o' type); [reflexivity|].
  destruct (isIgnoredTypeName o type); [now discriminate Hi|].
  destruct (JS.every _ _); [reflexivity|].
  destruct (isIntersection type).
  - destruct (existsb isAlways (map (collectToStringCertainty o) _));
      [|discriminate].
    now rewrite Hex.
  - destruct (isUnion type); cbn [negb]; [|discriminate].
    unfold unionVerdict. cbn [andb orb].
    destruct (forallb isAlways (map (collectToStringCertainty o) _)) eqn:Ea.
    + rewrite (Hall eq_refl).
      destruct (types type) as [|x l]; [cbn; discriminate|].
      intros _. specialize (Hall eq_refl).
      cbn [map forallb] in Hall. apply andb_true_iff in Hall.
      destruct Hall as [Hx _]. unfold isAlways in Hx.
      apply Usefulness_eqb_eq in Hx.
      cbn [map existsb]. rewrite Hx. reflexivity.
    + cbn [andb].
      destruct (existsb (fun u => negb (isNever u))
                        (map (collectToStringCertainty o) (types type)));
        intros H; discriminate H.
Qed.

Lemma filter_filter_impl {A : Type} (p q : A -> bool) (l : list A) :
  (forall x, p x = true -> q x = true) ->
  filter p (filter q l) = filter p l.
Proof.
  intros H. induction l as [|x l IH]; cbn; [reflexivity|].
  destruct (q x) eqn:Eq; cbn.
  - now rewrite IH.
  - destruct (p x) eqn:Ep; [|exact IH].
    apply H in Ep. congruence.
Qed.

(** X7. A more permissive configuration (more ignored names, functions
    rejected only if they were) never takes [Always] from a type. *)
Theorem permissive_keeps_Always (o o' : Options) (type : ts_Type) :
  permissive o o' ->
  collectToStringCertainty o type = Always ->
  collectToStringCertainty o' type = Always.
Proof.
  intros H. now apply permissive_Always.
Qed.

(** X8. Under a more permissive configuration a traversal reports a
    subsequence of the nodes it reported before: those that are still
    reportable. *)
Theorem permissive_reports_fewer (o o' : Options) (visits : list Visit) :
  permissive o o' ->
  map node (traverse o' visits [])
  = filter (reportable o') (map node (traverse o visits [])).
Proof.
  intros H.
  destruct (traverse_spec o visits) as [-> _].
  destruct (traverse_spec o' visits) as [-> _].
  symmetry. apply filter_filter_impl.
  intros e. unfold reportable. rewrite !andb_true_iff, !negb_true_iff.
  intros [Hl Ha]. split; [assumption|].
  unfold isAlways in *.
  destruct (Usefulness_eqb (collectToStringCertainty o _) Always) eqn:E;
    [|reflexivity].
  apply Usefulness_eqb_eq in E.
  apply (permissive_Always o o' H) in E.
  apply Usefulness_eqb_eq in E. congruence.
Qed.

(** X9. Only the set of ignored names and the truthiness of
    [rejectFunctions] matter: two configurations that agree on them give
    every type the same verdict. *)
Theorem configuration_as_a_set (o o' : Options) :
  (forall name, In name (ignoredTypeNames o) <-> In name (ignoredTypeNames o')) ->
  JS.truthy (opt_rejectFunctions o) = JS.truthy (opt_rejectFunctions o') ->
  forall type : ts_Type,
    collectToStringCertainty o type = collectToStringCertainty o' type.
Proof.
  intros Hnames Hrej. induction type as [type IH] using ts_Type_ind.
  rewrite !collectToStringCertainty_eq, !intersectionLoop_map,
    !unionLoop_map.
  assert (Hr : rejectsFunction o type = rejectsFunction o' type)
    by (unfold rejectsFunction; now rewrite Hrej).
  assert (Hi : isIgnoredTypeName o type = isIgnoredTypeName o' type).
  { unfold isIgnoredTypeName.
    destruct (JS.includes (ignoredTypeNames o') _) eqn:E.
    - apply includes_In. apply Hnames. now apply includes_In.
    - destruct (JS.includes (ignoredTypeNames o) _) eqn:E'; [|reflexivity].
      apply includes_In, Hnames, includes_In in E'. congruence. }
  assert (Hm : map (collectToStringCertainty o) (types type)
               = map (collectToStringCertainty o') (types type)).
  { apply map_ext_in. now apply Forall_forall. }
  now rewrite Hr, Hi, Hm.
Qed.

Lemma existsb_Permutation {A : Type} (p : A -> bool) (l l' : list A) :
  Permutation l l' -> existsb p l = existsb p l'.
Proof.
  induction 1 as [| x l l' _ IH | x y l | l l' l'' _ IH1 _ IH2]; cbn.
  - reflexivity.
  - now rewrite IH.
  - destruct (p x), (p y); reflexivity.
  - congruence.
Qed.

Lemma forallb_Permutation {A : Type} (p : A -> bool) (l l' : list A) :
  Permutation l l' -> forallb p l = forallb p l'.
Proof.
  induction 1 as [| x l l' _ IH | x y l | l l' l'' _ IH1 _ IH2]; cbn.
  - reflexivity.
  - now rewrite IH.
  - destruct (p x), (p y); reflexivity.
  - congruence.
Qed.

(** X10. The verdict of a union or an intersection does not depend on the
    order of its constituents. *)
Theorem verdict_ignores_constituent_order (o : Options) (type : ts_Type)
        (subTypes subTypes' : list ts_Type) :
  Permutation subTypes subTypes' ->
  collectToStringCertainty o (withTypes type subTypes)
  = collectToStringCertainty o (withTypes type subTypes').
Proof.
  intros Hp.
  apply (Permutation_map (collectToStringCertainty o)) in Hp.
  rewrite !collectToStringCertainty_eq, !intersectionLoop_map,
    !unionLoop_map.
  unfold rejectsFunction, lacksDeclarations, isBooleanLike,
    isIgnoredTypeName, toStringDeclarations, withTypes.
  cbn [flags getPropertyOfType getCallSignatures getTypeName
             isIntersection isUnion types].
  now rewrite (existsb_Permutation isAlways _ _ Hp),
    (forallb_Permutation isAlways _ _ Hp),
    (existsb_Permutation (fun u => negb (isNever u)) _ _ Hp).
Qed.

End Verdicts.

(* ================================================================== *)
(** ** The boolean flags *)

Lemma ToInt32_testbit (z i : Z) :
  (0 <= i < 32)%Z -> Z.testbit (JS.ToInt32 z) i = Z.testbit z i.
Proof.
  intros Hi. unfold JS.ToInt32.
  rewrite <- (Z.mod_pow2_bits_low _ 32 i) by lia.
  rewrite <- (Z.mod_pow2_bits_low z 32 i) by lia.
  f_equal. rewrite Zminus_mod_idemp_l. f_equal. lia.
Qed.

Lemma ToInt32_pow2 (i : Z) :
  (0 <= i < 31)%Z -> JS.ToInt32 (2 ^ i) = (2 ^ i)%Z.
Proof.
  intros Hi. unfold JS.ToInt32.
  assert (0 < 2 ^ i < 2 ^ 31)%Z.
  { split; [apply Z.pow_pos_nonneg; lia|].
    apply Z.pow_lt_mono_r; lia. }
  rewrite Z.mod_small; lia.
Qed.

Lemma land_pow2_truthy (a i : Z) :
  (0 <= i)%Z -> JS.truthyZ (Z.land a (2 ^ i)) = Z.testbit a i.
Proof.
  intros Hi. unfold JS.truthyZ.
  destruct (Z.testbit a i) eqn:E.
  - apply negb_true_iff, Z.eqb_neq. intros H.
    assert (Hb : Z.testbit (Z.land a (2 ^ i)) i = false)
      by (rewrite H; apply Z.bits_0).
    rewrite Z.land_spec, E, Z.pow2_bits_true in Hb by lia. discriminate.
  - apply negb_false_iff, Z.eqb_eq. apply Z.bits_inj'. intros k Hk.
    rewrite Z.land_spec, Z.bits_0, Z.pow2_bits_eqb by lia.
    destruct (Z.eqb_spec i k) as [<- | _].
    + now rewrite E.
    + apply andb_false_r.
Qed.

(** X11. When the two flags are single bits below bit 31, the test of
    line 111 reads exactly those two bits of [type.flags], whatever the
    other bits are. *)
Theorem isBooleanLike_reads_two_bits {ts : TypeFlags} (i j : Z)
        (type : ts_Type) :
  (0 <= i < 31)%Z -> (0 <= j < 31)%Z ->
  Boolean = (2 ^ i)%Z -> BooleanLiteral = (2 ^ j)%Z ->
  isBooleanLike type
  = Z.testbit (flags type) i || Z.testbit (flags type) j.
Proof.
  intros Hi Hj Hb Hl. unfold isBooleanLike, JS.bitand.
  rewrite Hb, Hl, !ToInt32_pow2, !land_pow2_truthy by lia.
  now rewrite !ToInt32_testbit by lia.
Qed.

(* ================================================================== *)
(** ** What a verdict tells about the type *)

Section Inversion.

Context {ts : TypeFlags}.
Variable option_ : Options.

#[local] Abbreviation collect := (collectToStringCertainty option_).

Lemma reachesDecomposition_unfold (type : ts_Type) :
  reachesDecomposition option_ type = true ->
  rejectsFunction option_ type = false
  /\ isBooleanLike type = false
  /\ ~ In (getTypeName type) (ignoredTypeNames option_)
  /\ Exists inObjectInterface (toStringDeclarations type).
Proof.
  unfold reachesDecomposition. rewrite !andb_true_iff, !negb_true_iff.
  intros ((((H1 & _) & H3) & H4) & H5). repeat split; try assumption.
  - intros Hin. apply includes_In in Hin.
    unfold isIgnoredTypeName in H4. congruence.
  - now apply every_notObjectInterface_false.
Qed.

Lemma flagged_reaches (type : ts_Type) :
  collect type = Never \/ collect type = Sometimes ->
  reachesDecomposition option_ type = true.
Proof.
  intros H. destruct (reachesDecomposition option_ type) eqn:Hr;
    [reflexivity|].
  destruct (short_circuit_verdict option_ type Hr) as [[E _] | [E _]];
    rewrite E in H; destruct H; discriminate.
Qed.

(** X12. [Sometimes] is a verdict of unions only: the type is a union, not
    an intersection, none of the early returns applied to it, some
    constituent is not [Never] and some constituent is not [Always]. *)
Theorem Sometimes_only_for_unions (type : ts_Type) :
  collect type = Sometimes ->
  reachesDecomposition option_ type = true
  /\ isIntersection type = false
  /\ isUnion type = true
  /\ Exists (fun v => v <> Never) (subtypeVerdicts option_ type)
  /\ Exists (fun v => v <> Always) (subtypeVerdicts option_ type).
Proof.
  intros H. assert (Hr := flagged_reaches type (or_intror H)).
  split; [exact Hr|].
  rewrite (collectToStringCertainty_decomposition option_ type Hr) in H.
  destruct (isIntersection type).
  { destruct (existsb isAlways _); discriminate. }
  destruct (isUnion type); [|discriminate].
  cbn [negb] in H. unfold unionVerdict in H.
  destruct (existsb (fun u => negb (isNever u)) _) eqn:Es.
  - destruct (forallb isAlways _) eqn:Ea; [discriminate|].
    repeat split.
    + now apply existsb_notNever.
    + apply Exists_exists.
      destruct (forallb_forall isAlways (subtypeVerdicts option_ type))
        as [_ Hall].
      destruct (existsb (fun v => negb (isAlways v))
                        (subtypeVerdicts option_ type)) eqn:En.
      * apply existsb_exists in En. destruct En as (v & Hv & E).
        exists v. split; [assumption|]. intros ->. discriminate.
      * rewrite Hall in Ea; [discriminate|]. intros v Hv.
        destruct (isAlways v) eqn:E; [reflexivity|].
        assert (existsb (fun v => negb (isAlways v))
                        (subtypeVerdicts option_ type) = true).
        { apply existsb_exists. exists v. now rewrite E. }
        congruence.
  - rewrite andb_false_r in H. discriminate.
Qed.

(** X13. A type is classified [Never] or [Sometimes] only if some
    declaration of its [toString] sits in an interface named [Object], its
    name is not ignored, it has no boolean flag and the function test did
    not apply. *)
Theorem flagged_types_rest_on_Object (type : ts_Type) :
  collect type = Never \/ collect type = Sometimes ->
  Exists inObjectInterface (toStringDeclarations type)
  /\ ~ In (getTypeName type) (ignoredTypeNames option_)
  /\ isBooleanLike type = false
  /\ rejectsFunction option_ type = false.
Proof.
  intros H. apply flagged_reaches, reachesDecomposition_unfold in H.
  tauto.
Qed.

(** X14. A type that reaches line 131 with no constituents is [Never],
    be it a union, an intersection or neither. *)
Theorem no_constituents_is_Never (type : ts_Type) :
  reachesDecomposition option_ type = true ->
  types type = [] ->
  collect type = Never.
Proof.
  intros Hr Ht.
  rewrite (collectToStringCertainty_decomposition option_ type Hr).
  unfold subtypeVerdicts. rewrite Ht. cbn.
  destruct (isIntersection type), (isUnion type); reflexivity.
Qed.

(** X15. What the verdict of a union tells about its constituents: if the
    union is [Always], there is at least one constituent and all are
    [Always]; if it is [Never], all are [Never]. *)
Theorem union_verdict_inversion (type : ts_Type) :
  reachesDecomposition option_ type = true ->
  isIntersection type = false ->
  isUnion type = true ->
  (collect type = Always ->
   subtypeVerdicts option_ type <> []
   /\ Forall (eq Always) (subtypeVerdicts option_ type))
  /\ (collect type = Never ->
      Forall (eq Never) (subtypeVerdicts option_ type)).
Proof.
  intros Hr HI HU.
  rewrite (collectToStringCertainty_decomposition option_ type Hr), HI, HU.
  cbn [negb]. unfold unionVerdict.
  destruct (forallb isAlways _) eqn:Ea,
    (existsb (fun u => negb (isNever u)) _) eqn:Es; cbn [andb];
    split; intros H; try discriminate H.
  - split; [|now apply forallb_isAlways].
    intros E. rewrite E in Es. discriminate.
  - now apply existsb_notNever_false.
  - now apply existsb_notNever_false.
Qed.

End Inversion.

(** X16. With the options [defaultOptions] holds, no traversal reports a
    function, and no traversal reports a node whose type is named [Error],
    [RegExp], [URL] or [URLSearchParams]. *)
Theorem defaults_spare_known_names {ts : TypeFlags} (option_ : Options)
        (visits : list Visit) :
  In option_ defaultOptions ->
  Forall (fun r =>
            messageId r = baseToString
            /\ ~ In (getTypeName (getTypeAtLocation (node r)))
                    ["Error"; "RegExp"; "URL"; "URLSearchParams"])
         (traverse option_ visits []).
Proof.
  intros [<- | []].
  eapply Forall_impl; [|apply (traverse_spec _ visits)].
  intros r (_ & _ & [(_ & _ & Hf) | (Hb & _ & Hc)]).
  - apply collect_Function_rejects in Hf. discriminate Hf.
  - split; [exact Hb|]. intros Hin.
    rewrite (collect_ignored_Always _ (getTypeAtLocation (node r))) in Hc.
    + cbn in Hc. destruct Hc; discriminate.
    + reflexivity.
    + unfold isIgnoredTypeName. now apply includes_In.
Qed.

(* ================================================================== *)
(** ** The further properties at the sample nodes *)

Section AtSampleNodes.

Import Samples SampleNodes.

Lemma no_function_report_without_rejectFunctions_witness :
  Forall (fun r => messageId r = baseToString) (traverse lenient visits []).
Proof.
  apply (no_function_report_without_rejectFunctions (ts := tsTypeFlags)
           lenient visits).
  reflexivity.
Defined.

Lemma checkExpression_silent_iff_witness :
  checkExpression rejecting objLiteral None [] = []
  /\ checkExpression rejecting pointExpr None [objReport] = [objReport].
Proof.
  split.
  - apply (proj2 (checkExpression_silent_iff (ts := tsTypeFlags)
                    rejecting objLiteral None [])).
    left. reflexivity.
  - apply (proj2 (checkExpression_silent_iff (ts := tsTypeFlags)
                    rejecting pointExpr None [objReport])).
    right. reflexivity.
Defined.

Lemma plus_checks_the_operand_beside_a_string_witness :
  onPlus lenient objPlusPoint [objReport] = [objReport]
  /\ onPlus lenient privPlusStr [] = []
  /\ ((getTypeName (getTypeAtLocation (left strPlusObj)) = "string"
       /\ node objReport = right strPlusObj)
      \/ (getTypeName (getTypeAtLocation (left strPlusObj)) <> "string"
          /\ getTypeName (getTypeAtLocation (right strPlusObj)) = "string"
          /\ node_type (left strPlusObj) <> PrivateIdentifier
          /\ node objReport = left strPlusObj)).
Proof.
  split; [|split].
  - destruct (plus_checks_the_operand_beside_a_string (ts := tsTypeFlags)
                lenient objPlusPoint) as (H & _ & _).
    apply H; vm_compute; discriminate.
  - destruct (plus_checks_the_operand_beside_a_string (ts := tsTypeFlags)
                lenient privPlusStr) as (_ & H & _).
    apply H; [vm_compute; discriminate | reflexivity].
  - destruct (plus_checks_the_operand_beside_a_string (ts := tsTypeFlags)
                lenient strPlusObj) as (_ & _ & H).
    apply H. vm_compute. left. reflexivity.
Defined.

Lemma permissive_keeps_Always_witness :
  collectToStringCertainty ignoringError pointOrError = Always
  /\ collectToStringCertainty lenient objectAndPoint = Always.
Proof.
  split.
  - apply (permissive_keeps_Always (ts := tsTypeFlags)
             (mkOptions (Some ["Error"]) (Some true)) ignoringError
             pointOrError).
    + split; [intros name H; exact H | vm_compute; discriminate].
    + reflexivity.
  - apply (permissive_keeps_Always (ts := tsTypeFlags)
             rejecting lenient objectAndPoint).
    + split; [intros name H; exact H | vm_compute; discriminate].
    + reflexivity.
Defined.

Lemma permissive_reports_fewer_witness :
  map node (traverse ignoringError visits [])
  = filter (reportable ignoringError) (map node (traverse rejecting visits [])).
Proof.
  apply (permissive_reports_fewer (ts := tsTypeFlags)
           rejecting ignoringError visits).
  split; [intros name [] | vm_compute; discriminate].
Defined.

Lemma configuration_as_a_set_witness :
  collectToStringCertainty (mkOptions (Some ["Error"; "URL"; "Error"]) None)
                           pointOrError
  = collectToStringCertainty (mkOptions (Some ["URL"; "Error"]) (Some false))
                             pointOrError.
Proof.
  apply (configuration_as_a_set (ts := tsTypeFlags)
           (mkOptions (Some ["Error"; "URL"; "Error"]) None)
           (mkOptions (Some ["URL"; "Error"]) (Some false))).
  - intros name. cbn. tauto.
  - reflexivity.
Defined.

Lemma verdict_ignores_constituent_order_witness :
  collectToStringCertainty lenient
    (withTypes pointOrObject [pointClass; plainObject])
  = collectToStringCertainty lenient
      (withTypes pointOrObject [plainObject; pointClass]).
Proof.
  apply (verdict_ignores_constituent_order (ts := tsTypeFlags)
           lenient pointOrObject).
  apply perm_swap.
Defined.

Lemma isBooleanLike_reads_two_bits_witness :
  isBooleanLike booleanType
  = Z.testbit (flags booleanType) 4 || Z.testbit (flags booleanType) 9.
Proof.
  apply (isBooleanLike_reads_two_bits (ts := tsTypeFlags) 4 9 booleanType);
    try reflexivity; lia.
Defined.

Lemma Sometimes_only_for_unions_witness :
  reachesDecomposition lenient pointOrObject = true
  /\ isIntersection pointOrObject = false
  /\ isUnion pointOrObject = true
  /\ Exists (fun v => v <> Never) (subtypeVerdicts lenient pointOrObject)
  /\ Exists (fun v => v <> Always) (subtypeVerdicts lenient pointOrObject).
Proof.
  apply (Sometimes_only_for_unions (ts := tsTypeFlags) lenient pointOrObject).
  reflexivity.
Defined.

Lemma flagged_types_rest_on_Object_witness :
  Exists inObjectInterface (toStringDeclarations plainObject)
  /\ ~ In (getTypeName plainObject) (ignoredTypeNames ignoringError)
  /\ isBooleanLike plainObject = false
  /\ rejectsFunction ignoringError plainObject = false.
Proof.
  apply (flagged_types_rest_on_Object (ts := tsTypeFlags)
           ignoringError plainObject).
  left. reflexivity.
Defined.

Lemma no_constituents_is_Never_witness :
  collectToStringCertainty lenient (withTypes pointOrObject []) = Never
  /\ collectToStringCertainty lenient (withTypes objectAndPoint []) = Never.
Proof.
  split.
  - apply (no_constituents_is_Never (ts := tsTypeFlags) lenient
             (withTypes pointOrObject [])); reflexivity.
  - apply (no_constituents_is_Never (ts := tsTypeFlags) lenient
             (withTypes objectAndPoint [])); reflexivity.
Defined.

Lemma union_verdict_inversion_witness :
  (subtypeVerdicts ignoringError pointOrError <> []
   /\ Forall (eq Always) (subtypeVerdicts ignoringError pointOrError))
  /\ Forall (eq Never) (subtypeVerdicts lenient objectOrRecord).
Proof.
  split.
  - destruct (union_verdict_inversion (ts := tsTypeFlags)
                ignoringError pointOrError eq_refl eq_refl eq_refl)
      as (H & _).
    apply H. reflexivity.
  - destruct (union_verdict_inversion (ts := tsTypeFlags)
                lenient objectOrRecord eq_refl eq_refl eq_refl)
      as (_ & H).
    apply H. reflexivity.
Defined.

Lemma defaults_spare_known_names_witness :
  Forall (fun r =>
            messageId r = baseToString
            /\ ~ In (getTypeName (getTypeAtLocation (node r)))
                    ["Error"; "RegExp"; "URL"; "URLSearchParams"])
         (traverse (mkOptions
                      (Some ["Error"; "RegExp"; "URL"; "URLSearchParams"])
                      (Some false))
                   (visitToStringCall
                      (mkPropertyNode (mkMemberExpressionNode errExpr))
                    :: visits) []).
Proof.
  apply (defaults_spare_known_names (ts := tsTypeFlags)).
  left. reflexivity.
Defined.

End AtSampleNodes.
